(** * A shallow embedding of the numeric core of @waynevanson/generator

    The sources embedded here are [src/lcg.ts], [src/gen/class.ts]
    ([Gen], [run], [modify], [increment], [map], [apply], [chain],
    [doApply]), [src/gen/seeded.ts], the [stated] and [decimal] instances,
    [src/gen/number.ts] ([positive], [negative]), [src/gen/positive.ts]
    ([verifyPositiveArguments], [positive]), [src/gen/number/number.ts]
    ([positive], [negative]), [src/gen/number/uniform.ts] and
    [src/gen/sized.ts].

    Seeds are integers ([Z]): the LCG step [a * seed + c] stays below
    [2^53] for seeds below [2^32], so the JavaScript doubles compute it
    exactly, and JavaScript's [%] is the truncated remainder [Z.rem].
    Most other JavaScript numbers (ranges, bias, influence, the mix) are
    modelled as exact rationals ([Q]), with [NaN] made explicit where the
    code produces it ([JSNumber]). The checks of [sized] compare a
    floating point sum with [1], so rounding decides them: there the
    weights are IEEE-754 doubles, Rocq's primitive floats, whose [+], [/],
    [<] and [==] are JavaScript's. *)

From Stdlib Require Import ZArith QArith Qround Lqa Lia List Bool.
From Stdlib Require Import PrimFloat.
From Stdlib Require FloatOps SpecFloat Uint63.
Import ListNotations.

Set Warnings "-inexact-float".

Open Scope Z_scope.

(** ** [src/lcg.ts] *)

(** [class Lcg { constructor(public a, public c, public m) }] *)
Record Lcg := mkLcg { a : Z; c : Z; m : Z }.

(** [Lcg.increment(seed) = (this.a * seed + this.c) % this.m]; JavaScript's
    [%] keeps the sign of the dividend, like [Z.rem]. *)
Definition Lcg_increment (l : Lcg) (seed : Z) : Z :=
  Z.rem (a l * seed + c l) (m l).

(** [export const lcg = new Lcg(1664525, 1013904223, 2 ** 32)] *)
Definition lcg : Lcg := mkLcg 1664525 1013904223 (2 ^ 32).

Definition M_MODULUS : Z := 2 ^ 32.
Definition C_CONSTANT : Z := 1013904223.
Definition A_MULTIPLIER : Z := 1664525.
Definition SEED_MIN : Z := 0.
Definition SEED_MAX : Z := M_MODULUS - 1.

(** The module-level [increment(seed)] of [lcg.ts]. *)
Definition increment (seed : Z) : Z :=
  Z.rem (A_MULTIPLIER * seed + C_CONSTANT) M_MODULUS.

(** ** [src/gen/class.ts] *)

(** [interface State { seed: number; lcg: Lcg }] *)
Record State := mkState { seed : Z; state_lcg : Lcg }.

(** [class Gen<A> { constructor(public stateful: (state) => [A, State]) }].
    The class is written over [State]; [seeded] threads a bare seed, so the
    state type is a parameter. *)
Definition Gen (S A : Type) : Type := S -> A * S.

Section GenCombinators.
Context {S : Type}.

(** [run(state) { return this.stateful(state)[0] }] *)
Definition run {A} (g : Gen S A) (s : S) : A := fst (g s).

(** [modify(f)] *)
Definition modify {A} (g : Gen S A) (f : S -> S) : Gen S A :=
  fun state1 => let (value1, state2) := g state1 in (value1, f state2).

(** [map(f)] *)
Definition map {A B} (g : Gen S A) (f : A -> B) : Gen S B :=
  fun state1 => let (value1, state2) := g state1 in (f value1, state2).

(** [apply(gen)]: [this] runs first, then [gen] on the state it left. *)
Definition apply {R B} (g : Gen S (R -> B)) (gen : Gen S R) : Gen S B :=
  fun state1 =>
    let (value1, state2) := g state1 in
    let (value2, state3) := gen state2 in
    (value1 value2, state3).

(** [chain(f)] *)
Definition chain {A B} (g : Gen S A) (f : A -> Gen S B) : Gen S B :=
  fun state1 => let (value1, state2) := g state1 in f value1 state2.

(** [doApply(property, gen)]: the record [{...a, [property]: b}] is the
    pair [(a, b)]. *)
Definition doApply {A B} (g : Gen S A) (gen : Gen S B) : Gen S (A * B) :=
  chain g (fun x => map gen (fun y => (x, y))).
End GenCombinators.

(** [Gen.increment()]: advance the seed with the state's own LCG. *)
Definition gen_increment {A} (g : Gen State A) : Gen State A :=
  modify g (fun st => mkState (Lcg_increment (state_lcg st) (seed st))
                              (state_lcg st)).

(** [export const stated = new Gen((state) => [state, state]).increment()] *)
Definition stated : Gen State State := gen_increment (fun st => (st, st)).

(** [export const seeded = new Gen((seed) => [seed, seed]).modify(increment)] *)
Definition seeded : Gen Z Z := modify (fun s => (s, s)) increment.

Open Scope Q_scope.

(** [export const decimal = stated.map(({ seed, lcg }) => seed / (lcg.m - 1))] *)
Definition decimal : Gen State Q :=
  map stated (fun st => inject_Z (seed st) / inject_Z (m (state_lcg st) - 1)).

(** ** Construction errors

    Every [throw new Error(...)] of the embedded constructors, with the
    values its message prints. *)
Inductive GenError :=
| MinimumLessThanZero (min : Q)
| MaximumLessThanZero (max : Q)
| MaximumLessThanMinimum (max min : Q)
| BiasLessThanMinimum (bias min : Q)
| BiasGreaterThanMaximum (bias max : Q)
| InfluenceUndefined
| InfluenceLessThanZero (influence : Q)
| InfluenceGreaterThanOne (influence : Q)
| BiasUndefined
| MinimumGreaterThanZero (min : Q)
| MaximumGreaterThanZero (max : Q)
| MinimumGreaterThanMaximum (min max : Q)
| BiasLessThanZero (bias : Q)
| BiasGreaterThanOne (bias : Q)
| SizedMaxLessThanOne (max : Q)
| DistributionLengthMismatch (length : nat) (max : Q)
| DistributionSumNotOne (sum : Q)
| ReduceOfEmptyArray
| IndexNotFound (index : Z).

(** A computation that returns a value or throws. *)
Inductive Result (A : Type) : Type :=
| Throw (e : GenError)
| Ok (x : A).
Arguments Throw {A} e.
Arguments Ok {A} x.

(** [if (cond) throw new Error(...)], followed by the rest of the body. *)
Definition throw_if {A} (cond : bool) (e : GenError) (k : Result A) : Result A :=
  if cond then Throw e else k.

(** JavaScript's [<] on numbers. *)
Definition Qltb (x y : Q) : bool := negb (Qle_bool y x).

Definition default {A} (d : A) (o : option A) : A :=
  match o with Some x => x | None => d end.

(** ** Scalers ([src/gen/util.ts], also inlined in [src/gen/number.ts]) *)

(** [interface Range extends Record<"min" | "max", number>] *)
Record Range := mkRange { rmin : Q; rmax : Q }.

(** [createPositiveScaler(source, target)]. Division by [0] is [0] in [Q],
    where JavaScript gives [Infinity] or [NaN]: the properties below assume
    a source range with [min < max]. *)
Definition createPositiveScaler (source target : Range) : Q -> Q :=
  let top := rmax target - rmin target in
  let bot := rmax source - rmin source in
  fun value => top * ((value - rmin source) / bot) + rmin target.

(** [function biasByMix(value, { bias, mix }) { return value * (1 - mix) +
    bias * mix }], local to [src/gen/number.ts] and to
    [src/gen/number/number.ts]. *)
Definition biasByMix (value bias mix : Q) : Q :=
  value * (1 - mix) + bias * mix.

(** A JavaScript number that is either finite or [NaN]. *)
Inductive JSNumber :=
| Finite (q : Q)
| NaN.

(** [-x] on a JavaScript number. *)
Definition js_negate (x : JSNumber) : JSNumber :=
  match x with Finite q => Finite (- q) | NaN => NaN end.

(** The options object passed to [src/gen/util.ts]'s [biasByMix]: its
    [target] property, [undefined] when absent, and [mix]. *)
Record BiasByMixOptions := mkBiasByMixOptions {
  bm_target : option Q;
  bm_mix : Q
}.

(** [export function biasByMix(value, { target, mix }) { return value *
    (1 - mix) + target * mix }] of [src/gen/util.ts]: an absent [target] is
    [undefined], and [undefined * mix] is [NaN], which the sum keeps. *)
Definition util_biasByMix (value : Q) (options : BiasByMixOptions) : JSNumber :=
  match bm_target options with
  | Some target => Finite (value * (1 - bm_mix options) + target * bm_mix options)
  | None => NaN
  end.

(** ** [positive]: options and validation *)

(** [interface PositiveOptions]; [undefined] is [None]. *)
Record PositiveOptions := mkPositiveOptions {
  p_min : option Q;
  p_max : option Q;
  p_bias : option Q;
  p_influence : option Q;
  p_unchecked : option bool
}.

(** [PositiveOptionsVerified]: the defaults filled in. *)
Record PositiveOptionsVerified := mkVerified {
  v_max : Q;
  v_min : Q;
  v_unchecked : bool;
  v_bias : option Q;
  v_influence : option Q
}.

(** [verifyPositiveArguments(options)] of [src/gen/positive.ts]; lines 83-128
    of [src/gen/number.ts] are the same destructuring and the same checks in
    the same order, inlined in its [positive]; [src/gen/number/number.ts]
    has its own copy of the function, word for word. *)
Definition verifyPositiveArguments (options : PositiveOptions)
  : Result PositiveOptionsVerified :=
  let min := default 0 (p_min options) in
  let max := default (inject_Z (2 ^ 32)) (p_max options) in
  let unchecked := default false (p_unchecked options) in
  let bias := p_bias options in
  let influence := p_influence options in
  let verified := mkVerified max min unchecked bias influence in
  if negb unchecked then
    throw_if (Qltb min 0) (MinimumLessThanZero min) (
    throw_if (Qltb max 0) (MaximumLessThanZero max) (
    throw_if (Qltb max min) (MaximumLessThanMinimum max min) (
    let after_bias :=
      match influence with
      | Some i =>
          throw_if (Qltb i 0) (InfluenceLessThanZero i) (
          throw_if (Qltb 1 i) (InfluenceGreaterThanOne i) (
          throw_if (match bias with None => true | Some _ => false end)
                   BiasUndefined (
          Ok verified)))
      | None => Ok verified
      end in
    match bias with
    | Some b =>
        throw_if (Qltb b min) (BiasLessThanMinimum b min) (
        throw_if (Qltb max b) (BiasGreaterThanMaximum b max) (
        throw_if (match influence with None => true | Some _ => false end)
                 InfluenceUndefined
        after_bias))
    | None => after_bias
    end)))
  else Ok verified.

(** The generator the [positive] of [src/gen/number.ts] and of
    [src/gen/number/number.ts] return:
    [stated.doApply("mix", decimal.map((decimal) => decimal * (influence ?? 1)))
       .map(({ seed, lcg, mix }) => ...)], with their local [biasByMix]. *)
Definition positive_gen (min max : Q) (bias influence : option Q) : Gen State Q :=
  map (doApply stated (map decimal (fun d => d * default 1 influence)))
      (fun '(st, mix) =>
         let source := mkRange 0 (inject_Z (m (state_lcg st) - 1)) in
         let scaler := createPositiveScaler source (mkRange min max) in
         let unbiased := scaler (inject_Z (seed st)) in
         match influence with
         | Some _ => biasByMix unbiased (default 0 bias) mix
         | None => unbiased
         end).

(** ** [src/gen/positive.ts] *)
Module PositiveTs.

(** The modules [./stated] and [./decimal] that [src/gen/positive.ts]
    imports have no file of their own under [src/gen]. The [stated] appended
    to [src/gen/number/number.ts] (from its line 220, importing [../lcg] and
    [./class]) is [new Gen((state) => [state, state]).modify(({ seed }) =>
    ({ seed: increment(seed) }))]: it returns the incoming state and leaves
    [{ seed: increment(seed) }], without an [lcg]. Here the state always
    holds an [lcg], which this [stated] carries over unchanged: the state
    after a run is not modelled faithfully, and no property below speaks
    about it; the values read the incoming state only. *)
Definition stated : Gen State State :=
  modify (fun st => (st, st)) (fun st => mkState (increment (seed st)) (state_lcg st)).

(** [export const decimal = stated.map(({ seed }) => seed / (M_MODULUS - 1))] *)
Definition decimal : Gen State Q :=
  map stated (fun st => inject_Z (seed st) / inject_Z (M_MODULUS - 1)).

(** [positive(options)]: [stated.doApply("mix", decimal.map(...)).map(...)],
    returning [biasByMix(unbiased, { bias: bias ?? 0, mix })] with the
    [biasByMix] of [./util], which reads [target] and not [bias]. *)
Definition positive (options : PositiveOptions) : Result (Gen State JSNumber) :=
  match verifyPositiveArguments options with
  | Throw e => Throw e
  | Ok v =>
      let influence := v_influence v in
      Ok (map (doApply stated (map decimal (fun d => d * default 1 influence)))
            (fun '(st, mix) =>
               let source := mkRange 0 (inject_Z (m (state_lcg st) - 1)) in
               let scaler := createPositiveScaler source (mkRange (v_min v) (v_max v)) in
               let unbiased := scaler (inject_Z (seed st)) in
               match influence with
               | Some _ => util_biasByMix unbiased (mkBiasByMixOptions None mix)
               | None => Finite unbiased
               end))
  end.

End PositiveTs.

(** ** [negative] *)

(** The destructured options of [negative({ min, max, bias, influence,
    unchecked } = {})]; [undefined] is [None]. *)
Record NegativeOptions := mkNegativeOptions {
  n_min : option Q;
  n_max : option Q;
  n_bias : option Q;
  n_influence : option Q;
  n_unchecked : option bool
}.

(** The checks shared, word for word, by both versions of [negative]. *)
Definition negative_checks {A} (min max bias influence : Q) (unchecked : bool)
  (k : Result A) : Result A :=
  if negb unchecked then
    throw_if (Qltb 0 min) (MinimumGreaterThanZero min) (
    throw_if (Qltb 0 max) (MaximumGreaterThanZero max) (
    throw_if (Qltb max min) (MinimumGreaterThanMaximum min max) (
    throw_if (Qltb bias 0) (BiasLessThanZero bias) (
    throw_if (Qltb 1 bias) (BiasGreaterThanOne bias) (
    throw_if (Qltb influence 0) (InfluenceLessThanZero influence) (
    throw_if (Qltb 1 influence) (InfluenceGreaterThanOne influence) k))))))
  else k.

(** ** [src/gen/number.ts] *)
Module NumberTs.

(** [positive(options)]: the same checks, then [bias = 0] (line 130) before
    the generator is built, so the mix is taken towards [0]. *)
Definition positive (options : PositiveOptions) : Result (Gen State Q) :=
  match verifyPositiveArguments options with
  | Throw e => Throw e
  | Ok v => Ok (positive_gen (v_min v) (v_max v) (Some 0) (v_influence v))
  end.

(** [negative(...)]: defaults [min = -(2 ** 32)],
    [max = 0], [bias = -0], [influence = 0], [unchecked = false]; then
    [positive({ min: max, max: -min, bias: -bias, influence, unchecked: true })
       .map((positive) => -positive)] with the [positive] of the same file. *)
Definition negative (options : NegativeOptions) : Result (Gen State Q) :=
  let min := default (- inject_Z (2 ^ 32)) (n_min options) in
  let max := default 0 (n_max options) in
  let bias := default 0 (n_bias options) in
  let influence := default 0 (n_influence options) in
  let unchecked := default false (n_unchecked options) in
  negative_checks min max bias influence unchecked (
    match positive (mkPositiveOptions (Some max) (Some (- min))
                             (Some (- bias)) (Some influence) (Some true)) with
    | Throw e => Throw e
    | Ok g => Ok (map g Qopp)
    end).

End NumberTs.

(** ** [src/gen/number/number.ts] *)
Module NumberNumberTs.

(** [positive(options)]: the checks of [src/gen/positive.ts], then the
    generator with the file's own [biasByMix], which reads [bias]. *)
Definition positive (options : PositiveOptions) : Result (Gen State Q) :=
  match verifyPositiveArguments options with
  | Throw e => Throw e
  | Ok v => Ok (positive_gen (v_min v) (v_max v) (v_bias v) (v_influence v))
  end.

(** [negative(...)]: the same as in [src/gen/number.ts], except that
    [unchecked] is passed through to the [positive] of this file. *)
Definition negative (options : NegativeOptions) : Result (Gen State Q) :=
  let min := default (- inject_Z (2 ^ 32)) (n_min options) in
  let max := default 0 (n_max options) in
  let bias := default 0 (n_bias options) in
  let influence := default 0 (n_influence options) in
  let unchecked := default false (n_unchecked options) in
  negative_checks min max bias influence unchecked (
    match positive (mkPositiveOptions (Some max) (Some (- min))
                      (Some (- bias)) (Some influence) (Some unchecked)) with
    | Throw e => Throw e
    | Ok g => Ok (map g Qopp)
    end).

End NumberNumberTs.

(** ** [src/gen/number/uniform.ts] *)

(** [uniform(max)]: [seeded.map((m) => Math.floor((m / SEED_MAX) * max))]. *)
Definition uniform (max : Q) : Result (Gen Z Z) :=
  throw_if (Qltb max 1) (SizedMaxLessThanOne max)
    (Ok (map seeded (fun mm => Qfloor (inject_Z mm / inject_Z SEED_MAX * max)))).

(** ** [src/gen/sized.ts] *)

(** [Array.prototype.reduce(f)] without an initial value: a [TypeError] on
    an empty array, otherwise a left fold from the first element. *)
Definition reduce (f : Q -> Q -> Q) (l : list Q) : option Q :=
  match l with
  | [] => None
  | x :: xs => Some (fold_left f xs x)
  end.

Fixpoint accumulate_from (f : Q -> Q -> Q) (previous : Q) (l : list Q)
  : list Q :=
  match l with
  | [] => []
  | x :: xs => let y := f previous x in y :: accumulate_from f y xs
  end.

(** [accumulate(inputs, f)]: the running folds of [f]. *)
Definition accumulate (f : Q -> Q -> Q) (inputs : list Q) : list Q :=
  match inputs with
  | [] => []
  | x :: xs => x :: accumulate_from f x xs
  end.

Fixpoint validators_from (lower : Q) (uppers : list Q) : list (Q -> bool) :=
  match uppers with
  | [] => []
  | upper :: rest =>
      (fun value => Qle_bool lower value && Qle_bool value upper)
        :: validators_from upper rest
  end.

(** [createValidators(distribution)]: the validator at [index] accepts
    [[array[index - 1], array[index]]] of the running sums ([0] below the
    first). *)
Definition createValidators (distribution : list Q) : list (Q -> bool) :=
  validators_from 0 (accumulate Qplus distribution).

(** [Array.prototype.findIndex] ([None] for [-1]). *)
Fixpoint findIndex {A} (p : A -> bool) (l : list A) : option nat :=
  match l with
  | [] => None
  | x :: xs => if p x then Some O else option_map S (findIndex p xs)
  end.

(** The generator [sized] returns once its table is accepted; the
    [istanbul ignore]d branch throws when no validator accepts. *)
Definition sized_gen (distribution : list Q) : Gen Z (Result Z) :=
  let validators := createValidators distribution in
  map seeded (fun seed =>
    let decimal := inject_Z seed / inject_Z (M_MODULUS - 1) in
    match findIndex (fun checker => checker decimal) validators with
    | Some index => Ok (Z.of_nat index)
    | None => Throw (IndexNotFound (-1))
    end).

(** [sized(max, distribution)] with an explicit [distribution], read in
    exact rational arithmetic. Its checks compare with [1] a sum the source
    computes in doubles; [SizedDouble.sized] below keeps that rounding and
    is the one that decides which tables throw. *)
Definition sized (max : Q) (distribution : list Q) : Result (Gen Z (Result Z)) :=
  throw_if (Qltb max 1) (SizedMaxLessThanOne max) (
  throw_if (negb (Qeq_bool (inject_Z (Z.of_nat (length distribution))) max))
           (DistributionLengthMismatch (length distribution) max) (
  match reduce Qplus distribution with
  | None => Throw ReduceOfEmptyArray
  | Some sum =>
      throw_if (negb (Qeq_bool sum 1)) (DistributionSumNotOne sum)
        (Ok (sized_gen distribution))
  end)).

(** ** More of [src/gen/class.ts] and its constructors *)

(** [of(value)] of [src/gen/constructors.ts]: [new Gen((state) => [value, state])]. *)
Definition of {S A : Type} (value : A) : Gen S A := fun state => (value, state).

(** [applyFirst(gen)]: [this.map((a) => () => a).apply(gen)]. *)
Definition applyFirst {S A B : Type} (g : Gen S A) (gen : Gen S B) : Gen S A :=
  apply (map g (fun x => fun _ : B => x)) gen.

(** [applySecond(gen)]: [this.map((_) => (b) => b).apply(gen)]. *)
Definition applySecond {S A B : Type} (g : Gen S A) (gen : Gen S B) : Gen S B :=
  apply (map g (fun _ => fun y : B => y)) gen.

(** [chainFirst(f)]: [this.chain((a) => f(a).map(() => a))]. *)
Definition chainFirst {S A B : Type} (g : Gen S A) (f : A -> Gen S B) : Gen S A :=
  chain g (fun x => map (f x) (fun _ => x)).

(** [range({ state, size })]: [size] runs of the generator, each on the
    state the previous one left, collected in order ([size] a whole number,
    as [new Array(size)] requires). *)
Fixpoint range {S A : Type} (g : Gen S A) (state : S) (size : nat) : list A :=
  match size with
  | O => []
  | Datatypes.S size' =>
      let (value, state') := g state in value :: range g state' size'
  end.

(** The [for] loop of [vector(gen, size)] ([src/gen/constructors.ts]): it
    pushes each value and keeps the last state. *)
Fixpoint vector_loop {S A : Type} (gen : Gen S A) (size : nat) (state1 : S)
  : list A * S :=
  match size with
  | O => ([], state1)
  | Datatypes.S size' =>
      let (value1, state2) := gen state1 in
      let (result, state3) := vector_loop gen size' state2 in
      (value1 :: result, state3)
  end.

(** [vector(gen, size)] *)
Definition vector {S A : Type} (gen : Gen S A) (size : nat) : Gen S (list A) :=
  vector_loop gen size.

(** [tuple(gens)] ([src/gen/tuple.ts]) for generators of one value type: the
    [for (const gen of gens)] loop. *)
Fixpoint tuple {S A : Type} (gens : list (Gen S A)) : Gen S (list A) :=
  fun state1 =>
    match gens with
    | [] => ([], state1)
    | gen :: rest =>
        let (value1, state2) := gen state1 in
        let (result, state3) := tuple rest state2 in
        (value1 :: result, state3)
    end.

(** [filter(refinement)]: the [while (true)] loop, run for at most [fuel]
    rounds; [None] when the fuel runs out before a value is accepted (the
    loop has not returned yet). *)
Fixpoint filter_loop {S A : Type} (g : Gen S A) (refinement : A -> bool) (fuel : nat)
  (state1 : S) : option (A * S) :=
  match fuel with
  | O => None
  | Datatypes.S fuel' =>
      let (value1, state2) := g state1 in
      if refinement value1 then Some (value1, state2)
      else filter_loop g refinement fuel' state2
  end.

(** ** More of [src/gen/util.ts] (also inlined in [src/gen/number.ts]) *)

(** [clamp(number, { min, max })]:
    [number >= max ? max : number <= min ? min : number]. *)
Definition clamp (number : Q) (r : Range) : Q :=
  if Qle_bool (rmax r) number then rmax r
  else if Qle_bool number (rmin r) then rmin r
  else number.

(** [createScaler(source, target)] *)
Definition createScaler (source target : Range) : Q -> Q :=
  let upper := mkRange (clamp (rmin target) (mkRange 0 (rmax target)))
                       (clamp (rmax target) (mkRange 0 (rmax target))) in
  let lower := mkRange (- clamp (rmin target) (mkRange (rmin target) 0))
                       (- clamp (rmax target) (mkRange (rmin target) 0)) in
  let createPositive := createPositiveScaler source upper in
  let createNegative := createPositiveScaler source lower in
  fun value => createPositive value - createNegative value.

(** JavaScript's [Math.round]: the nearest integer, halves rounded up. *)
Definition Math_round (x : Q) : Z := Qfloor (x + (1 # 2)).

(** [interface NumberOptions { min?: number; max?: number }] *)
Record NumberOptions := mkNumberOptions { no_min : option Q; no_max : option Q }.

(** [number({ min = -(2 ** 32), max = 2 ** 32 })] of [src/gen/number.ts]. *)
Definition number (options : NumberOptions) : Gen State Z :=
  let min := default (- inject_Z (2 ^ 32)) (no_min options) in
  let max := default (inject_Z (2 ^ 32)) (no_max options) in
  let target := mkRange min max in
  map stated (fun st =>
    let source := mkRange 0 (inject_Z (m (state_lcg st) - 1)) in
    let scaler := createScaler source target in
    let unrounded := scaler (inject_Z (seed st)) in
    Math_round unrounded).

(** ** More of [src/gen/sized.ts] *)

(** [array[index] = value] on an index inside the array. *)
Fixpoint replace_at {A} (l : list A) (index : nat) (value : A) : list A :=
  match l, index with
  | [], _ => []
  | _ :: xs, O => value :: xs
  | x :: xs, Datatypes.S index' => x :: replace_at xs index' value
  end.

(** ** [src/gen/sized.ts] on doubles

    [sized] accepts a table when [reduce((prev, curr) => prev + curr)],
    computed in double precision from left to right, is exactly [1]; the
    numbers of this module are doubles ([PrimFloat.float]), JavaScript's
    numbers, with its rounding. *)
Module SizedDouble.

Local Open Scope float_scope.

(** A whole number below [2^53] as the double that holds it. *)
Definition double_of_Z (z : Z) : float :=
  if Z.ltb z 0 then PrimFloat.opp (PrimFloat.of_uint63 (Uint63.of_Z (- z)))
  else PrimFloat.of_uint63 (Uint63.of_Z z).

Definition double_of_nat (n : nat) : float := double_of_Z (Z.of_nat n).

(** The exact value of a finite double ([0] for infinities and [NaN]). *)
Definition double_to_Q (f : float) : Q :=
  match FloatOps.Prim2SF f with
  | SpecFloat.S754_finite sign mantissa e =>
      ((if sign then -1 else 1) * inject_Z (Zpos mantissa) * Qpower 2 e)%Q
  | _ => 0%Q
  end.

(** JavaScript's [x < y] and [x == y] on numbers. *)
Definition lt (x y : float) : bool := PrimFloat.ltb x y.
Definition eq (x y : float) : bool := PrimFloat.eqb x y.

(** [sized]'s [throw]s, with the values their messages print. *)
Inductive SizedError :=
| MaxLessThanOne (max : float)
| LengthMismatch (length : nat) (max : float)
| ReduceOfEmptyArray
| SumNotOne (sum : float)
| IndexNotFound (index : Z).

(** [Array.prototype.reduce(f)] without an initial value. *)
Definition reduce (f : float -> float -> float) (l : list float) : option float :=
  match l with
  | [] => None
  | x :: xs => Some (fold_left f xs x)
  end.

Fixpoint accumulate_from (f : float -> float -> float) (previous : float)
  (l : list float) : list float :=
  match l with
  | [] => []
  | x :: xs => let y := f previous x in y :: accumulate_from f y xs
  end.

(** [accumulate(inputs, f)] *)
Definition accumulate (f : float -> float -> float) (inputs : list float) : list float :=
  match inputs with
  | [] => []
  | x :: xs => x :: accumulate_from f x xs
  end.

Fixpoint validators_from (lower : float) (uppers : list float) : list (float -> bool) :=
  match uppers with
  | [] => []
  | upper :: rest =>
      (fun value => PrimFloat.leb lower value && PrimFloat.leb value upper)
        :: validators_from upper rest
  end.

(** [createValidators(distribution)] *)
Definition createValidators (distribution : list float) : list (float -> bool) :=
  validators_from 0 (accumulate PrimFloat.add distribution).

(** The generator [sized] returns once its table is accepted. *)
Definition sized_gen (distribution : list float) : Gen Z (SizedError + Z) :=
  let validators := createValidators distribution in
  map seeded (fun seed =>
    let decimal := PrimFloat.div (double_of_Z seed) (double_of_Z (M_MODULUS - 1)) in
    match findIndex (fun checker => checker decimal) validators with
    | Some index => inr (Z.of_nat index)
    | None => inl (IndexNotFound (-1))
    end).

(** [sized(max, distribution)]: [max < 1], then
    [distribution.length != max], then the [reduce], then [sum !== 1]. *)
Definition sized (max : float) (distribution : list float)
  : SizedError + Gen Z (SizedError + Z) :=
  if lt max 1 then inl (MaxLessThanOne max)
  else if negb (eq (double_of_nat (length distribution)) max)
  then inl (LengthMismatch (length distribution) max)
  else match reduce PrimFloat.add distribution with
       | None => inl ReduceOfEmptyArray
       | Some sum =>
           if negb (eq sum 1) then inl (SumNotOne sum)
           else inr (sized_gen distribution)
       end.

(** [createDistribution(max)] for a whole [max]: [max] copies of [1 / max],
    the last one replaced by [1] minus the sum of the others
    ([slice(0, -1)] drops the last element; on an empty array the write to
    index [-1] adds no element). *)
Definition createDistribution (max : nat) : list float :=
  let average := PrimFloat.div 1 (double_of_nat max) in
  let distribution := repeat average max in
  let summish := fold_left PrimFloat.add (firstn (length distribution - 1) distribution) 0 in
  let last := PrimFloat.sub 1 summish in
  match length distribution with
  | O => distribution
  | Datatypes.S k => replace_at distribution k last
  end.

(** [sized(max)] with its default table [createDistribution(max)]. *)
Definition sized_default (max : nat) : SizedError + Gen Z (SizedError + Z) :=
  sized (double_of_nat max) (createDistribution max).

End SizedDouble.

(** ** The local [positive(range)] of [src/gen/number/integer.ts] *)



(** * Properties *)

(** ** Helper lemmas *)

Lemma Qltb_true (x y : Q) : Qltb x y = true <-> x < y.
Proof.
  unfold Qltb. rewrite negb_true_iff. split; intro H.
  - apply Qnot_le_lt. intro Hle. apply Qle_bool_iff in Hle. congruence.
  - destruct (Qle_bool y x) eqn:E; [|reflexivity].
    apply Qle_bool_iff in E. exfalso. apply (Qlt_not_le x y); assumption.
Qed.

Lemma Qltb_false (x y : Q) : Qltb x y = false <-> y <= x.
Proof.
  unfold Qltb. rewrite negb_false_iff. apply Qle_bool_iff.
Qed.

(** A seed in [[0, d]] divided by [d] lies in [[0, 1]]. *)
Lemma seed_ratio_bounds (z d : Z) :
  (0 <= z <= d)%Z -> (0 < d)%Z -> 0 <= inject_Z z / inject_Z d <= 1.
Proof.
  intros [H0 H1] Hd.
  assert (Qd : 0 < inject_Z d) by (change 0 with (inject_Z 0); rewrite <- Zlt_Qlt; lia).
  split.
  - apply Qle_shift_div_l; [exact Qd|].
    rewrite Qmult_0_l. change 0 with (inject_Z 0). rewrite <- Zle_Qle. lia.
  - apply Qle_shift_div_r; [exact Qd|].
    rewrite Qmult_1_l. rewrite <- Zle_Qle. lia.
Qed.


(** One LCG step keeps a non-negative seed in [[0, 2^32)]. *)
Lemma Lcg_increment_range (sd : Z) :
  (0 <= sd)%Z -> (0 <= Lcg_increment lcg sd < 2 ^ 32)%Z.
Proof.
  intros H. unfold Lcg_increment, lcg; cbn [a c m].
  rewrite Z.rem_mod_nonneg by lia.
  apply Z.mod_pos_bound. lia.
Qed.

(** ** The LCG step *)

(** C1: for every seed in [[0, 2^32)], [lcg.increment(seed)] is
    [(1664525 * seed + 1013904223) mod 2^32], lies again in [[0, 2^32)], and
    the module-level [increment] of [lcg.ts] computes the same value. *)
Theorem lcg_increment_spec (sd : Z) (H : (0 <= sd < 2 ^ 32)%Z) :
  Lcg_increment lcg sd = ((1664525 * sd + 1013904223) mod 2 ^ 32)%Z /\
  (0 <= Lcg_increment lcg sd < 2 ^ 32)%Z /\
  increment sd = Lcg_increment lcg sd.
Proof.
  split; [|split].
  - unfold Lcg_increment, lcg; cbn [a c m].
    apply Z.rem_mod_nonneg; lia.
  - apply Lcg_increment_range. lia.
  - reflexivity.
Qed.

Lemma lcg_increment_spec_witness :
  (0 <= 4294967295 < 2 ^ 32)%Z /\
  Lcg_increment lcg 4294967295 = ((1664525 * 4294967295 + 1013904223) mod 2 ^ 32)%Z /\
  (0 <= Lcg_increment lcg 4294967295 < 2 ^ 32)%Z /\
  increment 4294967295 = Lcg_increment lcg 4294967295.
Proof.
  assert (H : (0 <= 4294967295 < 2 ^ 32)%Z) by lia.
  split; [exact H | apply (lcg_increment_spec 4294967295 H)].
Defined.

(** ** [decimal] *)

(** C9: with the library's [lcg] and a seed in [[0, 2^32)], [decimal.run]
    returns [seed / (2^32 - 1)], a value in [[0, 1]]; the seed [1357954837]
    gives a value strictly between [0] and [1]. *)
Theorem decimal_run_spec (s : State) (Hl : state_lcg s = lcg)
  (Hs : (0 <= seed s < 2 ^ 32)%Z) :
  run decimal s = inject_Z (seed s) / inject_Z (2 ^ 32 - 1) /\
  0 <= run decimal s <= 1 /\
  0 < run decimal (mkState 1357954837 lcg) < 1.
Proof.
  assert (E : run decimal s = inject_Z (seed s) / inject_Z (2 ^ 32 - 1)).
  { unfold run, decimal, map, stated, gen_increment, modify; cbn [fst].
    rewrite Hl. reflexivity. }
  split; [exact E | split].
  - rewrite E. apply seed_ratio_bounds; lia.
  - vm_compute. split; reflexivity.
Qed.

Lemma decimal_run_spec_witness :
  state_lcg (mkState 0 lcg) = lcg /\
  run decimal (mkState 0 lcg) = inject_Z 0 / inject_Z (2 ^ 32 - 1) /\
  0 <= run decimal (mkState 0 lcg) <= 1 /\
  0 < run decimal (mkState 1357954837 lcg) < 1.
Proof.
  split; [reflexivity|].
  apply (decimal_run_spec (mkState 0 lcg)); [reflexivity | cbn; lia].
Defined.

(** ** [Gen.apply] *)

(** C10: [f.apply(g)] runs [f] on the incoming state first, then [g] on the
    state [f] left, and yields [fn(x)] with the state [g] left. *)
Theorem apply_threads_state {S R B : Type} (f : Gen S (R -> B)) (g : Gen S R)
  (s s2 s3 : S) (fn : R -> B) (x : R)
  (Hf : f s = (fn, s2)) (Hg : g s2 = (x, s3)) :
  apply f g s = (fn x, s3).
Proof.
  unfold apply. rewrite Hf, Hg. reflexivity.
Qed.

Lemma apply_threads_state_witness :
  map seeded Z.add 0%Z = (Z.add 0, increment 0) /\
  seeded (increment 0) = (increment 0, increment (increment 0)) /\
  apply (map seeded Z.add) seeded 0%Z
    = (Z.add 0 (increment 0), increment (increment 0)).
Proof.
  assert (Hf : map seeded Z.add 0%Z = (Z.add 0, increment 0)) by reflexivity.
  assert (Hg : seeded (increment 0) = (increment 0, increment (increment 0)))
    by reflexivity.
  split; [exact Hf | split; [exact Hg|]].
  exact (apply_threads_state (map seeded Z.add) seeded _ _ _ _ _ Hf Hg).
Defined.

(** ** [uniform] *)




(** ** [positive] *)



(** C3: in [src/gen/number.ts], with [min = max = bias = 5] and
    [influence = 1] (a valid option set), [positive(...).run] at seed [0]
    returns a value below [min = 5]: [bias = 0] pulls the mix towards [0]
    instead of towards the validated bias. *)
Lemma number_positive_leaves_range :
  match NumberTs.positive
          (mkPositiveOptions (Some 5) (Some 5) (Some 5) (Some 1) None) with
  | Ok g =>
      run g (mkState 0 lcg) < 5 /\
      run g (mkState 0 lcg)
        == 5 * (1 - inject_Z 1013904223 / inject_Z 4294967295)
  | Throw _ => False
  end.
Proof. vm_compute. split; reflexivity. Qed.

(** On the same input, the [positive] of [src/gen/number/number.ts] stays
    at [5], and the one of [src/gen/positive.ts] returns [NaN]. *)
Lemma positive_siblings_same_input :
  match NumberNumberTs.positive
          (mkPositiveOptions (Some 5) (Some 5) (Some 5) (Some 1) None),
        PositiveTs.positive
          (mkPositiveOptions (Some 5) (Some 5) (Some 5) (Some 1) None) with
  | Ok g, Ok h => run g (mkState 0 lcg) == 5 /\ run h (mkState 0 lcg) = NaN
  | _, _ => False
  end.
Proof. vm_compute. split; reflexivity. Qed.

(** ** Validation of [positive]'s options *)

(** Split every JavaScript comparison of the goal into its two outcomes. *)
Ltac split_comparisons :=
  repeat match goal with
  | |- context [Qltb ?x ?y] =>
      let E := fresh "E" in
      destruct (Qltb x y) eqn:E;
      [apply Qltb_true in E | apply Qltb_false in E]
  end.

(** [verifyPositiveArguments] returns the options with their defaults, or
    throws. *)
Lemma verify_result (o : PositiveOptions) :
  (exists e, verifyPositiveArguments o = Throw e) \/
  verifyPositiveArguments o =
    Ok (mkVerified (default (inject_Z (2 ^ 32)) (p_max o)) (default 0 (p_min o))
                   (default false (p_unchecked o)) (p_bias o) (p_influence o)).
Proof.
  destruct o as [omin omax ob oi ou]. unfold verifyPositiveArguments, throw_if.
  cbn [p_min p_max p_bias p_influence p_unchecked].
  destruct (negb (default false ou)); [|right; reflexivity].
  destruct ob, oi; split_comparisons;
    solve [left; eexists; reflexivity | right; reflexivity].
Qed.

(** With validation on, [verifyPositiveArguments] throws exactly when one of
    its conditions fails. *)
Lemma verify_throws_iff (o : PositiveOptions) :
  default false (p_unchecked o) = false ->
  let min := default 0 (p_min o) in
  let max := default (inject_Z (2 ^ 32)) (p_max o) in
  (exists e, verifyPositiveArguments o = Throw e) <->
  (min < 0 \/ max < 0 \/ max < min \/
   match p_bias o, p_influence o with
   | Some _, None | None, Some _ => True
   | _, _ => False
   end \/
   match p_bias o with Some b => b < min \/ max < b | None => False end \/
   match p_influence o with Some i => i < 0 \/ 1 < i | None => False end).
Proof.
  destruct o as [omin omax ob oi ou]. cbn [p_min p_max p_bias p_influence p_unchecked].
  intros Hu. cbv zeta. unfold verifyPositiveArguments, throw_if.
  cbn [p_min p_max p_bias p_influence p_unchecked]. rewrite Hu. cbn [negb].
  set (min := default 0 omin). set (max := default (inject_Z (2 ^ 32)) omax).
  clearbody min max.
  destruct ob as [b|], oi as [i|]; split_comparisons;
    (split;
     [ intros _; tauto
     | intros _; eexists; reflexivity ])
  || (split;
     [ intros [e He]; discriminate
     | intros Hinv; exfalso; intuition lra ]).
Qed.

(** Both versions of [positive] throw exactly when
    [verifyPositiveArguments] does. *)
Lemma positive_throws_iff_verify (o : PositiveOptions) :
  ((exists e, PositiveTs.positive o = Throw e) <->
   (exists e, verifyPositiveArguments o = Throw e)) /\
  ((exists e, NumberTs.positive o = Throw e) <->
   (exists e, verifyPositiveArguments o = Throw e)).
Proof.
  unfold PositiveTs.positive, NumberTs.positive.
  destruct (verifyPositiveArguments o);
    split; split; intros [e' He']; try discriminate; eexists; reflexivity.
Qed.

(** A checked option set that passes every condition is accepted as is. *)
Lemma verify_ok (o : PositiveOptions) :
  default false (p_unchecked o) = false ->
  ~ (exists e, verifyPositiveArguments o = Throw e) ->
  verifyPositiveArguments o =
    Ok (mkVerified (default (inject_Z (2 ^ 32)) (p_max o)) (default 0 (p_min o))
                   false (p_bias o) (p_influence o)).
Proof.
  intros Hu Hn. destruct (verify_result o) as [H|H]; [contradiction|].
  rewrite H, Hu. reflexivity.
Qed.

(** Closes a comparison between rational constants. *)
Ltac qcheck := vm_compute; first [reflexivity | discriminate].

(** C8: with validation on, the [positive] of [src/gen/positive.ts] and
    that of [src/gen/number.ts] throw at
    construction exactly when [min < 0], [max < 0], [max < min], only one of
    [bias] and [influence] is given, [bias] lies outside [[min, max]] or
    [influence] outside [[0, 1]]; with [unchecked: true] they never throw;
    and a constructed generator returns a value from every state. *)
Theorem positive_validation (o : PositiveOptions) :
  let min := default 0 (p_min o) in
  let max := default (inject_Z (2 ^ 32)) (p_max o) in
  let invalid :=
    min < 0 \/ max < 0 \/ max < min \/
    match p_bias o, p_influence o with
    | Some _, None | None, Some _ => True
    | _, _ => False
    end \/
    match p_bias o with Some b => b < min \/ max < b | None => False end \/
    match p_influence o with Some i => i < 0 \/ 1 < i | None => False end in
  (default false (p_unchecked o) = false ->
     ((exists e, PositiveTs.positive o = Throw e) <-> invalid) /\
     ((exists e, NumberTs.positive o = Throw e) <-> invalid)) /\
  (default false (p_unchecked o) = true ->
     (exists g, PositiveTs.positive o = Ok g) /\
     (exists g, NumberTs.positive o = Ok g)) /\
  (forall g s, PositiveTs.positive o = Ok g -> exists v s', g s = (v, s')) /\
  (forall g s, NumberTs.positive o = Ok g -> exists v s', g s = (v, s')).
Proof.
  cbv zeta. destruct (positive_throws_iff_verify o) as [HP HN].
  split; [|split].
  - intros Hu. pose proof (verify_throws_iff o Hu) as Hv. cbv zeta in Hv.
    rewrite HP, HN, Hv. split; reflexivity.
  - intros Hu.
    assert (Hv : verifyPositiveArguments o =
                 Ok (mkVerified (default (inject_Z (2 ^ 32)) (p_max o))
                                (default 0 (p_min o)) true (p_bias o) (p_influence o))).
    { unfold verifyPositiveArguments. rewrite Hu. reflexivity. }
    unfold PositiveTs.positive, NumberTs.positive. rewrite Hv.
    split; eexists; reflexivity.
  - split; intros g s _; exists (fst (g s)), (snd (g s)); destruct (g s); reflexivity.
Qed.

(** Valid explicit options are accepted by [verifyPositiveArguments]. *)
Lemma verify_accepts (min max : Q) (bias influence : option Q) :
  0 <= min -> min <= max ->
  match bias, influence with
  | Some b, Some i => min <= b <= max /\ 0 <= i <= 1
  | None, None => True
  | _, _ => False
  end ->
  verifyPositiveArguments (mkPositiveOptions (Some min) (Some max) bias influence None)
  = Ok (mkVerified max min false bias influence).
Proof.
  intros H1 H2 H3.
  apply (verify_ok (mkPositiveOptions (Some min) (Some max) bias influence None));
    [reflexivity|].
  rewrite (verify_throws_iff (mkPositiveOptions (Some min) (Some max) bias influence None)
             eq_refl). cbv zeta. cbn [p_min p_max p_bias p_influence default].
  destruct bias as [b|], influence as [i|]; intuition lra.
Qed.



(** C6: in [src/gen/number.ts], two valid biases give the same generator
    run from every state: the bias is replaced by [0] before sampling. *)
Theorem number_positive_ignores_bias (min max b1 b2 influence : Q) (s : State)
  (Hmin : 0 <= min) (Hmax : min <= max) (Hb1 : min <= b1 <= max)
  (Hb2 : min <= b2 <= max) (Hi : 0 <= influence <= 1) :
  exists g1 g2,
    NumberTs.positive (mkPositiveOptions (Some min) (Some max) (Some b1) (Some influence) None) = Ok g1 /\
    NumberTs.positive (mkPositiveOptions (Some min) (Some max) (Some b2) (Some influence) None) = Ok g2 /\
    run g1 s = run g2 s /\ g1 s = g2 s.
Proof.
  unfold NumberTs.positive.
  rewrite (verify_accepts min max (Some b1) (Some influence) Hmin Hmax (conj Hb1 Hi)).
  rewrite (verify_accepts min max (Some b2) (Some influence) Hmin Hmax (conj Hb2 Hi)).
  do 2 eexists. repeat split.
Qed.

Lemma number_positive_ignores_bias_witness :
  0 <= 0 /\ 0 <= 10 /\ 0 <= 2 <= 10 /\ 0 <= 9 <= 10 /\ 0 <= 1 # 2 <= 1 /\
  exists g1 g2,
    NumberTs.positive (mkPositiveOptions (Some 0) (Some 10) (Some 2) (Some (1 # 2)) None) = Ok g1 /\
    NumberTs.positive (mkPositiveOptions (Some 0) (Some 10) (Some 9) (Some (1 # 2)) None) = Ok g2 /\
    run g1 (mkState 7 lcg) = run g2 (mkState 7 lcg) /\ g1 (mkState 7 lcg) = g2 (mkState 7 lcg).
Proof.
  assert (H1 : 0 <= 0) by qcheck.
  assert (H2 : 0 <= 10) by qcheck.
  assert (H3 : 0 <= 2 <= 10) by (split; qcheck).
  assert (H4 : 0 <= 9 <= 10) by (split; qcheck).
  assert (H5 : 0 <= 1 # 2 <= 1) by (split; qcheck).
  do 5 (split; [assumption|]).
  exact (number_positive_ignores_bias 0 10 2 9 (1 # 2) (mkState 7 lcg) H1 H2 H3 H4 H5).
Defined.

(** ** [negative] *)

(** C4: [negative({ min: -10, max: -2 })] of [src/gen/number.ts] calls
    [positive] over [[max, -min] = [-2, 10]] instead of the mirrored
    [[-max, -min] = [2, 10]]: at seed [0] it returns [2], above [max = -2],
    where the negated [positive] over [[2, 10]] returns [-2]; the
    [negative] of [src/gen/number/number.ts] throws at construction on the
    same options, since its checked [positive] rejects the minimum [-2]. *)
Lemma negative_mirror_slip :
  match NumberTs.negative (mkNegativeOptions (Some (-10)) (Some (-2)) None None None),
        NumberTs.positive (mkPositiveOptions (Some 2) (Some 10) None None None),
        NumberNumberTs.negative (mkNegativeOptions (Some (-10)) (Some (-2)) None None None)
  with
  | Ok g, Ok p, Throw e =>
      run g (mkState 0 lcg) == 2 /\ -2 < run g (mkState 0 lcg) /\
      - run p (mkState 0 lcg) == -2 /\ e = MinimumLessThanZero (-2)
  | _, _, _ => False
  end.
Proof. vm_compute. repeat split; reflexivity. Qed.

(** ** [sized] *)

(** An accepted table gives the generator built from that very table. *)
Lemma sized_double_inr (max : PrimFloat.float) (d : list PrimFloat.float) g :
  SizedDouble.sized max d = inr g -> g = SizedDouble.sized_gen d.
Proof.
  unfold SizedDouble.sized.
  destruct (SizedDouble.lt max 1); [discriminate|].
  destruct (negb _); [discriminate|].
  destruct d as [|x xs]; cbn [SizedDouble.reduce]; [discriminate|].
  destruct (negb _); [discriminate|]. intros H. injection H as <-. reflexivity.
Qed.

(** C7: [sized(n, distribution)] throws at construction exactly when
    [n < 1], [distribution.length != n], or the double-precision sum
    [distribution.reduce((prev, curr) => prev + curr)], taken from left to
    right, is not [1]; an accepted table is used as given; and the two
    tables of the specification are rejected, the first for its length and
    the second for its sum. *)
Theorem sized_validation_double (n : PrimFloat.float) (distribution : list PrimFloat.float) :
  ((exists e, SizedDouble.sized n distribution = inl e) <->
   (SizedDouble.lt n 1 = true \/
    SizedDouble.eq (SizedDouble.double_of_nat (length distribution)) n = false \/
    match distribution with
    | [] => True
    | x :: xs => SizedDouble.eq (fold_left PrimFloat.add xs x) 1 = false
    end)) /\
  (forall g, SizedDouble.sized n distribution = inr g ->
     g = SizedDouble.sized_gen distribution) /\
  SizedDouble.sized 5 [0.1; 0.15; 0.2; 0.25; 0.2; 0.1]%float
    = inl (SizedDouble.LengthMismatch 6 5) /\
  (exists sum, SizedDouble.sized 5 [0.1; 0.15; 0.2; 0.25; 0.2]%float
                 = inl (SizedDouble.SumNotOne sum)).
Proof.
  split; [|split; [apply sized_double_inr | split; [reflexivity | eexists; reflexivity]]].
  unfold SizedDouble.sized.
  destruct (SizedDouble.lt n 1).
  { split; [intros _; left; reflexivity | intros _; eexists; reflexivity]. }
  destruct (SizedDouble.eq _ n); cbn [negb].
  2: { split; [intros _; right; left; reflexivity | intros _; eexists; reflexivity]. }
  destruct distribution as [|x xs]; cbn [SizedDouble.reduce].
  { split; [intros _; right; right; exact I | intros _; eexists; reflexivity]. }
  destruct (SizedDouble.eq (fold_left PrimFloat.add xs x) 1); cbn [negb].
  - split; [intros [e He]; discriminate | intros [H|[H|H]]; discriminate].
  - split; [intros _; right; right; reflexivity | intros _; eexists; reflexivity].
Qed.

(** C7, against the exact sum: [sized(2, [1, 2^-60])] is accepted although
    its weights sum to [1 + 2^-60], as the double sum rounds to [1]; and
    [sized(4, [0.5, 2^-54, 2^-54, 0.5 - 2^-53])] throws although its weights
    sum to exactly [1], as the double sum is [1 - 2^-53]. *)
Lemma sized_sum_rounding_counterexample :
  SizedDouble.sized 2 [1; 0x1p-60]%float
    = inr (SizedDouble.sized_gen [1; 0x1p-60]%float) /\
  ~ (fold_right Qplus 0 (List.map SizedDouble.double_to_Q [1; 0x1p-60]%float) == 1) /\
  SizedDouble.sized 4 [0.5; 0x1p-54; 0x1p-54; 0x1.ffffffffffffep-2]%float
    = inl (SizedDouble.SumNotOne 0x1.fffffffffffffp-1) /\
  fold_right Qplus 0
    (List.map SizedDouble.double_to_Q [0.5; 0x1p-54; 0x1p-54; 0x1.ffffffffffffep-2]%float) == 1.
Proof.
  split; [reflexivity|]. split.
  { intro H. vm_compute in H. discriminate H. }
  split; [reflexivity | vm_compute; reflexivity].
Qed.

Lemma positive_validation_witness :
  default false (p_unchecked (mkPositiveOptions (Some 1) (Some 3) (Some 2) None None)) = false /\
  exists e, PositiveTs.positive (mkPositiveOptions (Some 1) (Some 3) (Some 2) None None) = Throw e.
Proof.
  split; [reflexivity|].
  destruct (positive_validation (mkPositiveOptions (Some 1) (Some 3) (Some 2) None None))
    as [Hchecked _].
  destruct (Hchecked eq_refl) as [[_ Hback] _]. apply Hback.
  cbn [p_bias p_influence]. right; right; right; left; exact I.
Defined.

(** * Further properties of the code *)

(** ** Combinators of [Gen] *)

(** [map] composes: mapping twice is mapping the composition, from every
    state. *)
Theorem map_map {S A B C : Type} (g : Gen S A) (f1 : A -> B) (f2 : B -> C) (s : S) :
  map (map g f1) f2 s = map g (fun x => f2 (f1 x)) s.
Proof. unfold map. destruct (g s). reflexivity. Qed.

(** [chain] is associative, and [of] is its unit on both sides. *)
Theorem chain_monad_laws {S A B C : Type} :
  (forall (x : A) (f : A -> Gen S B) (s : S), chain (of x) f s = f x s) /\
  (forall (g : Gen S A) (s : S), chain g of s = g s) /\
  (forall (g : Gen S A) (f : A -> Gen S B) (h : B -> Gen S C) (s : S),
     chain (chain g f) h s = chain g (fun x => chain (f x) h) s).
Proof.
  split; [|split].
  - reflexivity.
  - intros g s. unfold chain, of. destruct (g s). reflexivity.
  - intros g f h s. unfold chain. destruct (g s). reflexivity.
Qed.

(** [apply] is [chain] followed by [map]: the function's generator runs,
    then the argument's. *)
Theorem apply_is_chain_map {S R B : Type} (gf : Gen S (R -> B)) (g : Gen S R) (s : S) :
  apply gf g s = chain gf (fun fn => map g fn) s.
Proof. unfold apply, chain, map. destruct (gf s). destruct (g _). reflexivity. Qed.

(** [applyFirst] and [applySecond] run both generators in order and keep
    the state the second leaves; the first keeps the first value, the
    second the second value. [chainFirst] keeps the first value and the
    state the generator built from it leaves. *)
Theorem apply_first_second {S A B : Type} (g : Gen S A) (h : Gen S B) (s : S) :
  applyFirst g h s = (fst (g s), snd (h (snd (g s)))) /\
  applySecond g h s = (fst (h (snd (g s))), snd (h (snd (g s)))) /\
  (forall f : A -> Gen S B,
     chainFirst g f s = (fst (g s), snd (f (fst (g s)) (snd (g s))))).
Proof.
  unfold applyFirst, applySecond, chainFirst, apply, chain, map.
  destruct (g s) as [x s2]. cbn [fst snd].
  split; [|split]; [destruct (h s2); reflexivity | destruct (h s2); reflexivity |].
  intros f. destruct (f x s2). reflexivity.
Qed.

(** ** [vector], [range] and [tuple] *)

(** [vector(gen, size)] yields exactly [size] values, the same values
    [gen.range({ state, size })] collects, and the same as [tuple] over
    [size] copies of [gen], final state included. *)
Theorem vector_range_tuple {S A : Type} (gen : Gen S A) (size : nat) (s : S) :
  length (run (vector gen size) s) = size /\
  run (vector gen size) s = range gen s size /\
  vector gen size s = tuple (repeat gen size) s.
Proof.
  unfold run, vector. revert s.
  induction size as [|n IH]; intros s; [split; [|split]; reflexivity|].
  destruct (IH (snd (gen s))) as [Hl [Hr Ht]].
  cbn [vector_loop range repeat tuple]. destruct (gen s) as [v s2].
  cbn [snd] in Hl, Hr, Ht.
  destruct (vector_loop gen n s2) as [vs s3] eqn:E. cbn [fst] in Hl, Hr |- *.
  rewrite <- Ht.
  split; [cbn; rewrite Hl; reflexivity | split; [rewrite Hr; reflexivity | reflexivity]].
Qed.

(** ** Scalers, [number], [sized], the local [positive] of [integer.ts],
    the LCG permutation, seed use and [filter] *)


Lemma clamp_hi (x lo hi : Q) : hi <= x -> clamp x (mkRange lo hi) = hi.
Proof.
  intros H. unfold clamp; cbn [rmin rmax].
  apply Qle_bool_iff in H. rewrite H. reflexivity.
Qed.

Lemma clamp_lo (x lo hi : Q) : x < hi -> x <= lo -> clamp x (mkRange lo hi) = lo.
Proof.
  intros H1 H2. unfold clamp; cbn [rmin rmax].
  apply Qltb_true in H1. unfold Qltb in H1. apply negb_true_iff in H1. rewrite H1.
  apply Qle_bool_iff in H2. rewrite H2. reflexivity.
Qed.

Lemma clamp_mid (x lo hi : Q) : lo < x -> x < hi -> clamp x (mkRange lo hi) = x.
Proof.
  intros H1 H2. unfold clamp; cbn [rmin rmax].
  apply Qltb_true in H1, H2. unfold Qltb in H1, H2. apply negb_true_iff in H1, H2.
  rewrite H1, H2. reflexivity.
Qed.

Lemma clamp_within (x lo hi : Q) :
  lo <= hi ->
  (lo <= clamp x (mkRange lo hi) <= hi) /\
  (lo <= x <= hi -> clamp x (mkRange lo hi) == x).
Proof.
  intros H.
  destruct (Qlt_le_dec x hi) as [Hh|Hh]; [|rewrite clamp_hi by exact Hh; split; [lra | intros; lra]].
  destruct (Qlt_le_dec lo x) as [Hl|Hl]; [|rewrite clamp_lo by assumption; split; [lra | intros; lra]].
  rewrite clamp_mid by assumption. split; [lra | reflexivity].
Qed.



(** [clamp(number, { min, max })] with [min <= max] returns a value in
    [[min, max]], and returns [number] itself when it is already there. *)
Theorem clamp_spec (x lo hi : Q) :
  lo <= hi ->
  (lo <= clamp x (mkRange lo hi) <= hi) /\
  (lo <= x <= hi -> clamp x (mkRange lo hi) == x).
Proof. apply clamp_within. Qed.



(** [filter(refinement)]: a value it returns is accepted by the refinement;
    more rounds of the loop never change a result; and with a refinement
    that accepts nothing the loop never returns. *)
Theorem filter_spec {S A : Type} (g : Gen S A) (refinement : A -> bool) :
  (forall fuel s v s', filter_loop g refinement fuel s = Some (v, s') ->
     refinement v = true) /\
  (forall fuel fuel' s r, (fuel <= fuel')%nat ->
     filter_loop g refinement fuel s = Some r ->
     filter_loop g refinement fuel' s = Some r) /\
  ((forall x, refinement x = false) ->
     forall fuel s, filter_loop g refinement fuel s = None).
Proof.
  split; [|split].
  - intros fuel. induction fuel as [|f IH]; intros s v s' H; cbn [filter_loop] in H;
      [discriminate|].
    destruct (g s) as [x s2]. destruct (refinement x) eqn:E.
    + injection H as <- <-. exact E.
    + exact (IH s2 v s' H).
  - intros fuel. induction fuel as [|f IH]; intros fuel' s r Hle H; cbn [filter_loop] in H;
      [discriminate|].
    destruct fuel' as [|f']; [lia|]. cbn [filter_loop].
    destruct (g s) as [x s2]. destruct (refinement x); [exact H|].
    apply IH; [lia | exact H].
  - intros Hno fuel. induction fuel as [|f IH]; intros s; [reflexivity|].
    cbn [filter_loop]. destruct (g s) as [x s2]. rewrite Hno. apply IH.
Qed.







(** ** sized *)






(** For every whole [max] from [1] to [4096], [createDistribution(max)] has
    [max] weights and [sized(max)] with this default table accepts it: in
    doubles, the left-to-right sum of the first [max - 1] weights plus the
    last one, [1] minus that sum, is exactly [1]. *)
Theorem createDistribution_accepted (n : nat) :
  (1 <= n <= 4096)%nat ->
  length (SizedDouble.createDistribution n) = n /\
  SizedDouble.sized_default n = inr (SizedDouble.sized_gen (SizedDouble.createDistribution n)).
Proof.
  intros Hn.
  assert (C : forallb (fun k => Nat.eqb (length (SizedDouble.createDistribution k)) k &&
                                match SizedDouble.sized_default k with
                                | inr _ => true
                                | inl _ => false
                                end) (seq 1 4096) = true)
    by (vm_compute; reflexivity).
  rewrite forallb_forall in C. specialize (C n ltac:(apply in_seq; lia)).
  apply andb_true_iff in C as [C1 C2]. apply Nat.eqb_eq in C1. split; [exact C1|].
  destruct (SizedDouble.sized_default n) as [e|g] eqn:E; [discriminate|].
  unfold SizedDouble.sized_default in E. rewrite (sized_double_inr _ _ _ E). reflexivity.
Qed.

Lemma createDistribution_accepted_witness :
  (1 <= 10 <= 4096)%nat /\
  length (SizedDouble.createDistribution 10) = 10%nat /\
  SizedDouble.sized_default 10 = inr (SizedDouble.sized_gen (SizedDouble.createDistribution 10)).
Proof. split; [lia | apply createDistribution_accepted; lia]. Defined.

(** The rounding matters: the ten weights of [createDistribution(10)], nine
    copies of the double nearest [0.1] and [1] minus their double sum, do
    not sum to [1] exactly. *)
Lemma createDistribution_ten_exact_sum :
  ~ (fold_right Qplus 0 (List.map SizedDouble.double_to_Q (SizedDouble.createDistribution 10)) == 1).
Proof. intro H. vm_compute in H. discriminate H. Qed.




(** The library's LCG step is a permutation of [[0, 2^32)]: no two seeds
    share a successor, and every seed has a predecessor. *)
Theorem lcg_increment_bijective :
  (forall x y : Z, (0 <= x < 2 ^ 32)%Z -> (0 <= y < 2 ^ 32)%Z ->
     Lcg_increment lcg x = Lcg_increment lcg y -> x = y) /\
  (forall t : Z, (0 <= t < 2 ^ 32)%Z ->
     exists x, (0 <= x < 2 ^ 32)%Z /\ Lcg_increment lcg x = t).
Proof.
  unfold Lcg_increment, lcg; cbn [a c m].
  change (2 ^ 32)%Z with 4294967296%Z. split.
  - intros x y Hx Hy E.
    rewrite !Z.rem_mod_nonneg in E by lia.
    pose proof (Z.div_mod (1664525 * x + 1013904223) 4294967296 ltac:(lia)) as Dx.
    pose proof (Z.div_mod (1664525 * y + 1013904223) 4294967296 ltac:(lia)) as Dy.
    set (qx := ((1664525 * x + 1013904223) / 4294967296)%Z) in *.
    set (qy := ((1664525 * y + 1013904223) / 4294967296)%Z) in *.
    assert (K : (x - y = 4294967296 * (4276115653 * (qx - qy) - 1657219 * (x - y)))%Z) by lia.
    lia.
  - intros t Ht.
    exists ((4276115653 * (t - 1013904223)) mod 4294967296)%Z.
    assert (B := Z.mod_pos_bound (4276115653 * (t - 1013904223)) 4294967296 ltac:(lia)).
    split; [lia|].
    rewrite Z.rem_mod_nonneg by lia.
    rewrite <- (Z.add_mod_idemp_l (1664525 * _)) by lia.
    rewrite Z.mul_mod_idemp_r by lia.
    rewrite Z.add_mod_idemp_l by lia.
    replace (1664525 * (4276115653 * (t - 1013904223)) + 1013904223)%Z
      with (t + (1657219 * (t - 1013904223)) * 4294967296)%Z by ring.
    rewrite Z.mod_add by lia. apply Z.mod_small. lia.
Qed.

(** How many LCG steps each generator of [src/gen/number.ts] takes, with
    its [stated] the library's: [decimal] and [number] advance the state
    once, a generator of [positive] twice (one seed for the position, one
    for the mix), and the generators [uniform] and [sized] return advance
    their seed once with [increment]; the [lcg] is never changed. *)
Theorem seeds_consumed (s : State) (o : NumberOptions) :
  let next := fun st => mkState (Lcg_increment (state_lcg st) (seed st)) (state_lcg st) in
  snd (decimal s) = next s /\
  snd (number o s) = next s /\
  (forall p g, NumberTs.positive p = Ok g -> snd (g s) = next (next s)) /\
  (forall n g sd, uniform n = Ok g -> snd (g sd) = increment sd) /\
  (forall n d g sd, SizedDouble.sized n d = inr g -> snd (g sd) = increment sd).
Proof.
  cbv zeta. split; [|split; [|split; [|split]]].
  - reflexivity.
  - reflexivity.
  - intros p g H. unfold NumberTs.positive in H.
    destruct (verifyPositiveArguments p); [discriminate|]. injection H as <-.
    destruct s. reflexivity.
  - intros n g sd H. unfold uniform, throw_if in H.
    destruct (Qltb n 1); [discriminate|]. injection H as <-. reflexivity.
  - intros n d g sd H. rewrite (sized_double_inr _ _ _ H). reflexivity.
Qed.





Lemma clamp_spec_witness :
  0 <= 10 /\
  (0 <= clamp 15 (mkRange 0 10) <= 10) /\
  (0 <= 15 <= 10 -> clamp 15 (mkRange 0 10) == 15).
Proof. split; [lra | apply clamp_spec; lra]. Defined.



